(** * gh_cli.py: the GitHub CLI wrapper of the plugin catalogue workflow

    A shallow embedding of [.github/workflows/scripts/gh_cli.py] and the
    properties of its four operations: [pr_comment], [pr_update_or_comment],
    [pr_label] and [check_contributor].

    The script talks to three things outside itself: the [gh] executable
    (through [subprocess.check_output]), the file [reply.md] and the logger.
    They are modelled by a state (files and an append-only trace of events)
    and a [World] that decides the outcome of every external call, so that
    each theorem holds for every behaviour of the tool and of the file
    system. *)

From Stdlib Require Import ZArith NArith List String Ascii Bool Lia.
From Stdlib.Strings Require Import Byte.
From stdpp Require Import base option gmap strings list.
Import ListNotations.

Set Warnings "-register-all".
Local Open Scope string_scope.
Local Open Scope list_scope.

(** ** Python strings and bytes

    A [bytes] object is a [list byte]; a [str] is the [string] of its UTF-8
    encoding, so that [str.startswith], [str.join] and [str.split] with
    ASCII arguments are the byte-wise operations. *)

Module Py.

(** The characters no literal can hold. *)
Definition dq : string := String (ascii_of_nat 34) EmptyString.
Definition nl : string := String (ascii_of_nat 10) EmptyString.

(** [sep.join(ls)] *)
Definition join (sep : string) (ls : list string) : string :=
  String.concat sep ls.

(** [s.startswith(p)] *)
Definition startswith (s p : string) : bool := String.prefix p s.

(** *** [bytes.decode('utf-8')]

    The strict decoder accepts the well-formed byte sequences of the
    Unicode standard (no overlong form, no surrogate, nothing above
    U+10FFFF).  The automaton keeps the number of continuation bytes still
    due and the range allowed for the next one. *)
Definition utf8_state : Type := nat * N * N.

Definition utf8_start : utf8_state := (0%nat, 0x80%N, 0xBF%N).

Definition utf8_step (st : utf8_state) (b : N) : option utf8_state :=
  let '(due, lo, hi) := st in
  match due with
  | O =>
      if (b <? 0x80)%N then Some (0%nat, 0x80%N, 0xBF%N)
      else if ((0xC2 <=? b) && (b <=? 0xDF))%N then Some (1%nat, 0x80%N, 0xBF%N)
      else if (b =? 0xE0)%N then Some (2%nat, 0xA0%N, 0xBF%N)
      else if (b =? 0xED)%N then Some (2%nat, 0x80%N, 0x9F%N)
      else if ((0xE1 <=? b) && (b <=? 0xEF))%N then Some (2%nat, 0x80%N, 0xBF%N)
      else if (b =? 0xF0)%N then Some (3%nat, 0x90%N, 0xBF%N)
      else if ((0xF1 <=? b) && (b <=? 0xF3))%N then Some (3%nat, 0x80%N, 0xBF%N)
      else if (b =? 0xF4)%N then Some (3%nat, 0x80%N, 0x8F%N)
      else None
  | S due' =>
      if ((lo <=? b) && (b <=? hi))%N then Some (due', 0x80%N, 0xBF%N) else None
  end.

Fixpoint utf8_run (st : utf8_state) (bs : list byte) : bool :=
  match bs with
  | [] => match st with (O, _, _) => true | _ => false end
  | b :: bs' =>
      match utf8_step st (Byte.to_N b) with
      | Some st' => utf8_run st' bs'
      | None => false
      end
  end.

Definition utf8_valid (bs : list byte) : bool := utf8_run utf8_start bs.

(** [Some] text, or [None] where Python raises [UnicodeDecodeError]. *)
Definition decode (bs : list byte) : option string :=
  if utf8_valid bs then Some (string_of_list_byte bs) else None.

(** The encoding of a text, for the examples. *)
Definition encode (s : string) : list byte := list_byte_of_string s.

(** *** [str.upper()]

    ASCII letters are shifted; the ten characters outside ASCII whose
    uppercase form is made of ASCII letters only are replaced by it (the
    sharp s, the dotless i, the long s and the seven Latin ligatures).
    Every other character is left as it is, where Python maps it to a form
    that again lies outside ASCII: the two results agree on whether they
    equal a given ASCII text. *)
Definition is_lower (c : ascii) : bool :=
  ((0x61 <=? N_of_ascii c) && (N_of_ascii c <=? 0x7A))%N.

Definition upper_ascii (c : ascii) : ascii :=
  if is_lower c then ascii_of_N (N_of_ascii c - 0x20) else c.

Definition upper2 (c1 c2 : ascii) : option string :=
  match N_of_ascii c1, N_of_ascii c2 with
  | 0xC3%N, 0x9F%N => Some "SS"
  | 0xC4%N, 0xB1%N => Some "I"
  | 0xC5%N, 0xBF%N => Some "S"
  | _, _ => None
  end.

Definition upper3 (c1 c2 c3 : ascii) : option string :=
  match N_of_ascii c1, N_of_ascii c2, N_of_ascii c3 with
  | 0xEF%N, 0xAC%N, 0x80%N => Some "FF"
  | 0xEF%N, 0xAC%N, 0x81%N => Some "FI"
  | 0xEF%N, 0xAC%N, 0x82%N => Some "FL"
  | 0xEF%N, 0xAC%N, 0x83%N => Some "FFI"
  | 0xEF%N, 0xAC%N, 0x84%N => Some "FFL"
  | 0xEF%N, 0xAC%N, 0x85%N => Some "ST"
  | 0xEF%N, 0xAC%N, 0x86%N => Some "ST"
  | _, _, _ => None
  end.

Fixpoint upper (s : string) : string :=
  match s with
  | EmptyString => EmptyString
  | String c1 s1 =>
      let plain := String (upper_ascii c1) (upper s1) in
      match s1 with
      | EmptyString => plain
      | String c2 s2 =>
          match upper2 c1 c2 with
          | Some u => u +:+ upper s2
          | None =>
              match s2 with
              | EmptyString => plain
              | String c3 s3 =>
                  match upper3 c1 c2 c3 with
                  | Some u => u +:+ upper s3
                  | None => plain
                  end
              end
          end
      end
  end.

(** *** [str.split(sep)] for a one-character separator and [str.strip()]

    [strip] removes the white space of [str.isspace] at both ends: the
    ASCII characters 09 to 0D, 1C to 1F and 20 and, in their UTF-8 encoding,
    U+0085, U+00A0, U+1680, U+2000 to U+200A, U+2028, U+2029, U+202F,
    U+205F and U+3000. *)
Fixpoint split (sep : ascii) (s : string) : list string :=
  match s with
  | EmptyString => [EmptyString]
  | String c s' =>
      if Ascii.eqb c sep then EmptyString :: split sep s'
      else match split sep s' with
           | h :: t => String c h :: t
           | [] => [String c EmptyString]
           end
  end.

Definition is_space (c : ascii) : bool :=
  let n := N_of_ascii c in
  (((0x09 <=? n) && (n <=? 0x0D)) || ((0x1C <=? n) && (n <=? 0x20)))%N.

(** The white space of two bytes (U+0085, U+00A0) and of three. *)
Definition is_space2 (c1 c2 : ascii) : bool :=
  ((N_of_ascii c1 =? 0xC2)
   && ((N_of_ascii c2 =? 0x85) || (N_of_ascii c2 =? 0xA0)))%N.

Definition is_space3 (c1 c2 c3 : ascii) : bool :=
  let n1 := N_of_ascii c1 in
  let n2 := N_of_ascii c2 in
  let n3 := N_of_ascii c3 in
  (((n1 =? 0xE1) && (n2 =? 0x9A) && (n3 =? 0x80))
   || ((n1 =? 0xE2) && (n2 =? 0x80)
       && (((0x80 <=? n3) && (n3 <=? 0x8A))
           || (n3 =? 0xA8) || (n3 =? 0xA9) || (n3 =? 0xAF)))
   || ((n1 =? 0xE2) && (n2 =? 0x81) && (n3 =? 0x9F))
   || ((n1 =? 0xE3) && (n2 =? 0x80) && (n3 =? 0x80)))%N.

(** The text without the white space it begins with; [sp2] and [sp3]
    recognise the characters of two and three bytes, read forwards for the
    left end and backwards for the right end. *)
Fixpoint strip_front (sp2 : ascii -> ascii -> bool)
  (sp3 : ascii -> ascii -> ascii -> bool) (s : string) : string :=
  match s with
  | EmptyString => EmptyString
  | String c1 s1 =>
      if is_space c1 then strip_front sp2 sp3 s1
      else
        match s1 with
        | EmptyString => s
        | String c2 s2 =>
            if sp2 c1 c2 then strip_front sp2 sp3 s2
            else
              match s2 with
              | EmptyString => s
              | String c3 s3 =>
                  if sp3 c1 c2 c3 then strip_front sp2 sp3 s3 else s
              end
        end
  end.

Definition lstrip (s : string) : string := strip_front is_space2 is_space3 s.

Definition rstrip (s : string) : string :=
  string_of_list_ascii
    (rev (list_ascii_of_string
       (strip_front (fun c2 c1 => is_space2 c1 c2)
                    (fun c3 c2 c1 => is_space3 c1 c2 c3)
                    (string_of_list_ascii (rev (list_ascii_of_string s)))))).

Definition strip (s : string) : string := rstrip (lstrip s).

End Py.

(** ** Values, exceptions and the outside world *)

(** What [json.loads] returns: [None], a [bool], an [int], a [float] (kept
    as its literal), a [str], a [list] or a [dict] with [str] keys. *)
Inductive value : Type :=
| PyNone
| PyBool (b : bool)
| PyInt (z : Z)
| PyFloat (literal : string)
| PyStr (s : string)
| PyList (items : list value)
| PyDict (d : gmap string value).

(** The subclasses of [Exception] that the script can meet.  The handlers
    tell [subprocess.CalledProcessError] from all the others, caught by
    [except Exception]. *)
Inductive exn : Type :=
| CalledProcessError (returncode : Z)
| OSError
| TypeError
| KeyError (key : string)
| AttributeError
| UnicodeDecodeError
| JSONDecodeError
| OtherException (name : string).

Inductive outcome (A : Type) : Type :=
| Ret (a : A)
| Raise (e : exn).
Arguments Ret {A} a.
Arguments Raise {A} e.

(** One constructor per call of [logger.info] and [logger.error], with the
    values the message is formatted from. *)
Inductive message : Type :=
| MsgCommenting (pr_number : string) (edit_last : bool)
| MsgOutput (text : string)
| MsgFailedCommentReturned (returncode : Z)
| MsgFailedComment (e : exn)
| MsgUpdatingLast (user pr_number : string)
| MsgFailedCheckReturned (returncode : Z)
| MsgFailedCheck (e : exn)
| MsgLabeling (pr_number : string) (add_labels remove_labels : option (list string))
| MsgNoLabels
| MsgFailedLabel (e : exn)
| MsgChecking (pr_number : string)
| MsgContributor (author_login : value) (is_first_time : bool)
| MsgFailedFetch (e : exn).

Inductive level : Type := INFO | ERROR.

(** What the script does to the outside, in order: a line logged, a file
    written in full, the launch of a command together with the files the
    command finds. *)
Inductive event : Type :=
| Log (lvl : level) (msg : message)
| FileWrite (path content : string)
| Exec (cmd : list string) (found : gmap string string).

Record state : Type := mkState {
  files : gmap string string;
  trace : list event
}.

Definition emit (ev : event) (st : state) : state :=
  mkState (files st) (trace st ++ [ev]).

(** The outcome of each external call, as a function of everything that
    happened before: [check_output st cmd] is the standard output of the
    command or the exception [subprocess.check_output] raises (a non-zero
    exit is [CalledProcessError]); [open_write st path content] is [None]
    when the file is written in full, or the exception raised with what the
    attempt leaves in the file ([None] when the file could not be opened, a
    part of the content otherwise); [json_loads] is the parser of the
    standard library, [None] where it raises. *)
Record World : Type := mkWorld {
  check_output : state -> list string -> outcome (list byte);
  open_write : state -> string -> string -> option (exn * option string);
  json_loads : string -> option value
}.

(** ** The monad of the script: a world to read, a state to thread, an
    exception to raise *)

Definition M (A : Type) : Type := World -> state -> outcome A * state.

#[global] Instance M_ret : MRet M := λ A a _ st, (Ret a, st).

#[global] Instance M_bind : MBind M := λ A B k m w st,
  match m w st with
  | (Ret a, st') => k a w st'
  | (Raise e, st') => (Raise e, st')
  end.

Definition raise {A : Type} (e : exn) : M A := λ _ st, (Raise e, st).

(** [try: body except Exception as e: handler e] *)
Definition try_except {A : Type} (body : M A) (handler : exn -> M A) : M A :=
  λ w st,
    match body w st with
    | (Ret a, st') => (Ret a, st')
    | (Raise e, st') => handler e w st'
    end.

Definition lift {A : Type} (e : exn) (o : option A) : M A :=
  match o with Some a => mret a | None => raise e end.

Definition logger (lvl : level) (msg : message) : M unit :=
  λ _ st, (Ret tt, emit (Log lvl msg) st).

(** [with open(path, 'w', encoding='utf-8') as f: f.write(content)] *)
Definition write_text (path content : string) : M unit :=
  λ w st,
    match open_write w st path content with
    | None =>
        (Ret tt, mkState (<[path := content]> (files st))
                         (trace st ++ [FileWrite path content]))
    | Some (e, None) => (Raise e, st)
    | Some (e, Some partial) =>
        (Raise e, mkState (<[path := partial]> (files st)) (trace st))
    end.

(** [subprocess.check_output(cmd)]: the launch is recorded, then the world
    answers. *)
Definition subprocess_check_output (cmd : list string) : M (list byte) :=
  λ w st, let st' := emit (Exec cmd (files st)) st in (check_output w st' cmd, st').

(** [result.decode('utf-8')] *)
Definition decode (result : list byte) : M string :=
  lift UnicodeDecodeError (Py.decode result).

(** [json.loads(text)] *)
Definition loads (text : string) : M value :=
  λ w st, lift JSONDecodeError (json_loads w text) w st.

(** [v[key]] for a [str] key: only a [dict] can be subscripted by it. *)
Definition getitem (v : value) (key : string) : M value :=
  match v with
  | PyDict d => lift (KeyError key) (d !! key)
  | _ => raise TypeError
  end.

(** [v.upper()]: only a [str] has the method. *)
Definition upper (v : value) : M string :=
  match v with
  | PyStr s => mret (Py.upper s)
  | _ => raise AttributeError
  end.

(** ** The script

    The operations follow the source line by line.  Their defaults, the
    module constant [PR_NUMBER] read from the environment and [COMMENT_SIGN]
    imported from [utilities], are passed by the caller. *)

Definition EXECUTABLE : string := "gh".

Definition CATALOGUE_REPO : list string :=
  Py.split "/" "MCDReforged/PluginCatalogue".

Definition pr_comment (body : string) (edit_last : bool) (pr_number : string)
  : M unit :=
  try_except
    (logger INFO (MsgCommenting pr_number edit_last);;
     let body_file := "reply.md" in
     write_text body_file body;;
     let cmd := [EXECUTABLE; "pr"; "comment"; pr_number; "--body-file"; body_file] in
     let cmd := if edit_last then cmd ++ ["--edit-last"] else cmd in
     result ← subprocess_check_output cmd;
     text ← decode result;
     logger INFO (MsgOutput text))
    (λ e, match e with
          | CalledProcessError returncode =>
              logger ERROR (MsgFailedCommentReturned returncode)
          | _ => logger ERROR (MsgFailedComment e)
          end).

Definition jq_query (user sign : string) : string :=
  ".comments | any(.author.login == " +:+ Py.dq +:+ user +:+ Py.dq
  +:+ " and (.body | contains(" +:+ Py.dq +:+ sign +:+ Py.dq +:+ ")))".

Definition pr_update_or_comment (user body pr_number sign : string) : M unit :=
  let cmd := [EXECUTABLE; "pr"; "view"; pr_number; "--json"; "comments"; "--jq";
              jq_query user sign] in
  try_except
    (result ← subprocess_check_output cmd;
     text ← decode result;
     if Py.startswith text "true" then
       logger INFO (MsgUpdatingLast user pr_number);;
       pr_comment body true pr_number
     else
       pr_comment body false pr_number)
    (λ e, match e with
          | CalledProcessError returncode =>
              logger ERROR (MsgFailedCheckReturned returncode)
          | _ => logger ERROR (MsgFailedCheck e)
          end).

(** The truth value of an optional list: [None] and [[]] are false. *)
Definition truthy (labels : option (list string)) : bool :=
  match labels with
  | Some (_ :: _) => true
  | _ => false
  end.

Definition labels_of (labels : option (list string)) : list string :=
  default [] labels.

(** The command built before the [try], or [None] on the early [return]. *)
Definition pr_label_cmd (add_labels remove_labels : option (list string))
  (pr_number : string) : option (list string) :=
  let cmd := [EXECUTABLE; "pr"; "edit"; pr_number] in
  if truthy add_labels then
    Some (cmd ++ ["--add-label"; Py.join "," (labels_of add_labels)])
  else if truthy remove_labels then
    Some (cmd ++ ["--remove-label"; Py.join "," (labels_of remove_labels)])
  else None.

Definition pr_label (add_labels remove_labels : option (list string))
  (pr_number : string) : M unit :=
  logger INFO (MsgLabeling pr_number add_labels remove_labels);;
  match pr_label_cmd add_labels remove_labels pr_number with
  | None => logger INFO MsgNoLabels
  | Some cmd =>
      try_except
        (result ← subprocess_check_output cmd;
         text ← decode result;
         logger INFO (MsgOutput text))
        (λ e, logger ERROR (MsgFailedLabel e))
  end.

(** The f-string of the GraphQL query, before its lines are stripped and
    joined. *)
Definition query_template (pr_number : string) : string :=
  Py.nl +:+ "    {" +:+ Py.nl
  +:+ "      repository(owner: " +:+ Py.dq +:+ nth 0 CATALOGUE_REPO ""
  +:+ Py.dq +:+ ", name: " +:+ Py.dq +:+ nth 1 CATALOGUE_REPO ""
  +:+ Py.dq +:+ ") {" +:+ Py.nl
  +:+ "        pullRequest(number: " +:+ pr_number +:+ ") {" +:+ Py.nl
  +:+ "          author {" +:+ Py.nl
  +:+ "            login" +:+ Py.nl
  +:+ "          }" +:+ Py.nl
  +:+ "          authorAssociation" +:+ Py.nl
  +:+ "        }" +:+ Py.nl
  +:+ "      }" +:+ Py.nl
  +:+ "    }" +:+ Py.nl
  +:+ "    ".

Definition graphql_query (pr_number : string) : string :=
  Py.join " " (map Py.strip (Py.split (ascii_of_nat 10) (query_template pr_number))).

(** [v[k1][k2]...] *)
Fixpoint subscript (v : value) (keys : list string) : M value :=
  match keys with
  | [] => mret v
  | key :: keys' => v' ← getitem v key; subscript v' keys'
  end.

Definition check_contributor (pr_number : string) : M (value * bool) :=
  logger INFO (MsgChecking pr_number);;
  let query := graphql_query pr_number in
  let cmd := ["gh"; "api"; "graphql"; "-F"; "query=" +:+ query] in
  try_except
    (result ← subprocess_check_output cmd;
     text ← decode result;
     result_json ← loads text;
     author_login ←
       subscript result_json ["data"; "repository"; "pullRequest"; "author"; "login"];
     association ←
       subscript result_json ["data"; "repository"; "pullRequest"; "authorAssociation"];
     uppercased ← upper association;
     let is_first_time := String.eqb uppercased "FIRST_TIME_CONTRIBUTOR" in
     logger INFO (MsgContributor author_login is_first_time);;
     mret (author_login, is_first_time))
    (λ e, logger ERROR (MsgFailedFetch e);; mret (PyNone, false)).

(** ** The initialisation of the module

    What importing the module does to [os.environ], and the default PR
    number it reads there (the value its first log line carries). *)

Definition PR_NUMBER (environ : gmap string string) : option string :=
  environ !! "PR_NUMBER".

Definition setup_environ (environ : gmap string string) : gmap string string :=
  let environ :=
    match environ !! "GH_TOKEN" with
    | None => <["GH_TOKEN" := default "" (environ !! "github_api_token")]> environ
    | Some _ => environ
    end in
  <["NO_COLOR" := "true"]> environ.

(** ** Observing a run *)

(** The events a run appended to the trace, and the commands among them. *)
Definition new_events (st st' : state) : list event :=
  drop (length (trace st)) (trace st').

Definition events_of {A : Type} (m : M A) (w : World) (st : state) : list event :=
  new_events st (m w st).2.

Definition commands (evs : list event) : list (list string) :=
  omap (λ ev, match ev with Exec cmd _ => Some cmd | _ => None end) evs.

(** ** The words of the specification *)

(** The value under a path of keys, when every key of the path is present. *)
Fixpoint lookup_path (v : value) (keys : list string) : option value :=
  match keys with
  | [] => Some v
  | key :: keys' =>
      match v with
      | PyDict d => d !! key ≫= λ v', lookup_path v' keys'
      | _ => None
      end
  end.

Definition login_path : list string :=
  ["data"; "repository"; "pullRequest"; "author"; "login"].

Definition association_path : list string :=
  ["data"; "repository"; "pullRequest"; "authorAssociation"].

(** Two texts are equal up to case when their uppercase forms coincide. *)
Definition caseless_eq (s t : string) : Prop := Py.upper s = Py.upper t.

(** On ASCII texts this is the comparison letter by letter. *)
Definition is_ascii (s : string) : Prop :=
  Forall (λ c, (N_of_ascii c < 0x80)%N) (list_ascii_of_string s).

Definition same_letter (a b : ascii) : Prop :=
  a = b
  ∨ (Py.is_lower a = true ∧ N_of_ascii b = (N_of_ascii a - 0x20)%N)
  ∨ (Py.is_lower b = true ∧ N_of_ascii a = (N_of_ascii b - 0x20)%N).

(** What the tool answers to the query of [check_contributor] and to the
    one of [pr_update_or_comment], each launched after the events that
    precede it. *)
Definition contributor_answer (pr_number : string) (w : World) (st : state)
  : outcome (list byte) :=
  let st0 := emit (Log INFO (MsgChecking pr_number)) st in
  let cmd := ["gh"; "api"; "graphql"; "-F"; "query=" +:+ graphql_query pr_number] in
  check_output w (emit (Exec cmd (files st0)) st0) cmd.

Definition comments_cmd (user pr_number sign : string) : list string :=
  ["gh"; "pr"; "view"; pr_number; "--json"; "comments"; "--jq"; jq_query user sign].

Definition comments_asked (user pr_number sign : string) (st : state) : state :=
  emit (Exec (comments_cmd user pr_number sign) (files st)) st.

Definition comments_answer (user pr_number sign : string) (w : World) (st : state)
  : outcome (list byte) :=
  check_output w (comments_asked user pr_number sign st)
    (comments_cmd user pr_number sign).

(** The ways the query of [check_contributor] fails: the tool raises (a
    non-zero exit is [CalledProcessError]), its output is not UTF-8 or not
    JSON, a field of the two paths is missing, or the association is not a
    text. *)
Inductive fetch_failure (w : World) (answer : outcome (list byte)) : Prop :=
| tool_failed (e : exn) :
    answer = Raise e -> fetch_failure w answer
| output_not_utf8 (out : list byte) :
    answer = Ret out -> Py.decode out = None -> fetch_failure w answer
| output_not_json (out : list byte) (text : string) :
    answer = Ret out -> Py.decode out = Some text ->
    json_loads w text = None -> fetch_failure w answer
| field_missing (out : list byte) (text : string) (doc : value) (path : list string) :
    answer = Ret out -> Py.decode out = Some text ->
    json_loads w text = Some doc ->
    path = login_path ∨ path = association_path ->
    lookup_path doc path = None -> fetch_failure w answer
| association_not_text (out : list byte) (text : string) (doc v : value) :
    answer = Ret out -> Py.decode out = Some text ->
    json_loads w text = Some doc ->
    lookup_path doc association_path = Some v ->
    (forall s, v <> PyStr s) -> fetch_failure w answer.

(** The result of [check_contributor], read off the answer of the tool. *)
Definition contributor_result (w : World) (answer : outcome (list byte))
  : value * bool :=
  match answer with
  | Raise _ => (PyNone, false)
  | Ret out =>
      match Py.decode out with
      | None => (PyNone, false)
      | Some text =>
          match json_loads w text with
          | None => (PyNone, false)
          | Some doc =>
              match lookup_path doc login_path, lookup_path doc association_path with
              | Some login, Some (PyStr association) =>
                  (login, String.eqb (Py.upper association) "FIRST_TIME_CONTRIBUTOR")
              | _, _ => (PyNone, false)
              end
          end
      end
  end.

(** The message of a handler that tells a non-zero exit from the rest. *)
Definition failure_message (returned : Z -> message) (other : exn -> message)
  (e : exn) : message :=
  match e with
  | CalledProcessError returncode => returned returncode
  | _ => other e
  end.

(** The command of [pr_comment], the state in which it is launched once the
    body is written, and what the tool answers there. *)
Definition comment_cmd (pr_number : string) (edit_last : bool) : list string :=
  ["gh"; "pr"; "comment"; pr_number; "--body-file"; "reply.md"]
  ++ (if edit_last then ["--edit-last"] else []).

Definition comment_announced (edit_last : bool) (pr_number : string)
  (st : state) : state :=
  emit (Log INFO (MsgCommenting pr_number edit_last)) st.

Definition body_written (body : string) (edit_last : bool) (pr_number : string)
  (w : World) (st : state) : Prop :=
  open_write w (comment_announced edit_last pr_number st) "reply.md" body = None.

Definition comment_launched (body : string) (edit_last : bool)
  (pr_number : string) (st : state) : state :=
  let st1 := comment_announced edit_last pr_number st in
  let st2 := mkState (<["reply.md" := body]> (files st1))
                     (trace st1 ++ [FileWrite "reply.md" body]) in
  emit (Exec (comment_cmd pr_number edit_last) (files st2)) st2.

Definition comment_answer (body : string) (edit_last : bool)
  (pr_number : string) (w : World) (st : state) : outcome (list byte) :=
  check_output w (comment_launched body edit_last pr_number st)
    (comment_cmd pr_number edit_last).

(** The text that closes the login and opens the marker in the jq filter. *)
Definition jq_separator : string :=
  Py.dq +:+ " and (.body | contains(" +:+ Py.dq.

(** A text without line feed, and the query as one line. *)
Fixpoint no_newline (s : string) : bool :=
  match s with
  | EmptyString => true
  | String c s' => negb (Ascii.eqb c (ascii_of_nat 10)) && no_newline s'
  end.

Definition one_line_query (pr_number : string) : string :=
  " { repository(owner: " +:+ Py.dq +:+ "MCDReforged" +:+ Py.dq
  +:+ ", name: " +:+ Py.dq +:+ "PluginCatalogue" +:+ Py.dq
  +:+ ") { pullRequest(number: " +:+ pr_number
  +:+ ") { author { login } authorAssociation } } } ".

(** ** Worlds and documents for the examples *)

Definition initial : state := mkState ∅ [].

(** A world where files can be written, the tool answers by [answer] and
    the parser is known through a table of texts, each with the value
    [json.loads] gives for it. *)
Definition parse_table (table : list (string * value)) (text : string)
  : option value :=
  snd <$> List.find (λ entry, String.eqb entry.1 text) table.

Definition scripted (answer : list string -> outcome (list byte))
  (table : list (string * value)) : World :=
  mkWorld (λ _ cmd, answer cmd) (λ _ _ _, None) (parse_table table).

Definition quoted (s : string) : string := Py.dq +:+ s +:+ Py.dq.

(** The answer of the GraphQL endpoint, with the JSON texts of the login and
    of the association left open, and the value it parses to. *)
Definition contributor_text (login association : string) : string :=
  "{" +:+ quoted "data" +:+ ":{" +:+ quoted "repository" +:+ ":{"
  +:+ quoted "pullRequest" +:+ ":{" +:+ quoted "author" +:+ ":{"
  +:+ quoted "login" +:+ ":" +:+ login +:+ "},"
  +:+ quoted "authorAssociation" +:+ ":" +:+ association +:+ "}}}}".

Definition contributor_doc (login association : value) : value :=
  PyDict {[ "data" := PyDict {[ "repository" := PyDict {[ "pullRequest" :=
    PyDict (<[ "author" := PyDict {[ "login" := login ]} ]>
             {[ "authorAssociation" := association ]}) ]} ]} ]}.

Definition answers (text : string) : list string -> outcome (list byte) :=
  λ _, Ret (Py.encode text).

(** Every command succeeds and prints nothing. *)
Definition world_quiet : World := scripted (answers "") [].

(** Every command succeeds and prints the line [true]. *)
Definition world_true : World := scripted (answers ("true" +:+ Py.nl)) [].

(** Every command exits with status 1. *)
Definition world_exit_1 : World :=
  scripted (λ _, Raise (CalledProcessError 1)) [].

(** Every command prints the single byte 0xFF, which is not UTF-8. *)
Definition world_garbled : World := scripted (λ _, Ret [xff]) [].

(** The author is alice, a first-time contributor, in mixed case. *)
Definition newcomer_text : string :=
  contributor_text (quoted "alice") (quoted "First_Time_Contributor").

Definition newcomer_doc : value :=
  contributor_doc (PyStr "alice") (PyStr "First_Time_Contributor").

Definition world_newcomer : World :=
  scripted (answers newcomer_text) [(newcomer_text, newcomer_doc)].

(** The login is the JSON null. *)
Definition null_login_text : string :=
  contributor_text "null" (quoted "FIRST_TIME_CONTRIBUTOR").

Definition null_login_doc : value :=
  contributor_doc PyNone (PyStr "FIRST_TIME_CONTRIBUTOR").

Definition world_null_login : World :=
  scripted (answers null_login_text) [(null_login_text, null_login_doc)].

(** The association is the number 5. *)
Definition number_association_text : string :=
  contributor_text (quoted "alice") "5".

Definition number_association_doc : value :=
  contributor_doc (PyStr "alice") (PyInt 5).

Definition world_number_association : World :=
  scripted (answers number_association_text)
    [(number_association_text, number_association_doc)].

(** ** Proof support *)

Lemma new_events_app st tr evs :
  new_events st (mkState tr (trace st ++ evs)) = evs.
Proof. unfold new_events. simpl. apply drop_app_length. Qed.

#[global] Arguments Py.join : simpl never.
#[global] Arguments Py.startswith : simpl never.
#[global] Arguments Py.decode : simpl never.
#[global] Arguments Py.upper : simpl never.
#[global] Arguments String.eqb : simpl never.
#[global] Arguments graphql_query : simpl never.
#[global] Arguments jq_query : simpl never.

Ltac unfold_script :=
  unfold events_of, try_except, logger, write_text, subprocess_check_output,
    decode, loads, lift, emit, raise, mbind, M_bind, mret, M_ret,
    EXECUTABLE in *;
  simpl in *.

(** Case analysis on the answers of the world and of the decoder. *)
Ltac world_cases :=
  repeat match goal with
    | |- context [check_output ?w ?st ?cmd] =>
        let E := fresh "Hrun" in destruct (check_output w st cmd) eqn:E; simpl
    | |- context [open_write ?w ?st ?p ?c] =>
        let E := fresh "Hopen" in
        destruct (open_write w st p c) as [[? [?|]]|] eqn:E; simpl
    | |- context [Py.decode ?bs] =>
        let E := fresh "Hdec" in destruct (Py.decode bs) eqn:E; simpl
    | |- context [match ?e with CalledProcessError _ => _ | _ => _ end] =>
        is_var e; destruct e; simpl
    end.

Ltac normalize_trace :=
  repeat rewrite <- app_assoc; simpl;
  try rewrite new_events_app; simpl.

Ltac run_script := unfold_script; world_cases; normalize_trace.

(** [pr_comment] hands every exception to one of its handlers. *)
Lemma pr_comment_returns body edit_last pr_number w st :
  (pr_comment body edit_last pr_number w st).1 = Ret tt.
Proof. unfold pr_comment. destruct edit_last; run_script; reflexivity. Qed.

Lemma pr_update_or_comment_returns user body pr_number sign w st :
  (pr_update_or_comment user body pr_number sign w st).1 = Ret tt.
Proof.
  unfold pr_update_or_comment. unfold_script.
  destruct (check_output _ _ _) as [out|e]; simpl.
  - destruct (Py.decode out) as [text|]; simpl; [|reflexivity].
    destruct (Py.startswith text "true"); simpl.
    + match goal with |- context [pr_comment ?b ?e ?p ?w ?s] =>
        pose proof (pr_comment_returns b e p w s) as H;
        destruct (pr_comment b e p w s) as [[[]|] ?]; simpl in *; congruence end.
    + match goal with |- context [pr_comment ?b ?e ?p ?w ?s] =>
        pose proof (pr_comment_returns b e p w s) as H;
        destruct (pr_comment b e p w s) as [[[]|] ?]; simpl in *; congruence end.
  - destruct e; reflexivity.
Qed.

Lemma pr_label_returns add_labels remove_labels pr_number w st :
  (pr_label add_labels remove_labels pr_number w st).1 = Ret tt.
Proof.
  unfold pr_label.
  destruct (pr_label_cmd add_labels remove_labels pr_number);
    run_script; reflexivity.
Qed.

(** Subscripting along a path finds what [lookup_path] finds, raises where
    it finds nothing, and leaves the state alone. *)
Lemma subscript_lookup keys : forall v w st,
  match lookup_path v keys with
  | Some x => subscript v keys w st = (Ret x, st)
  | None => exists e, subscript v keys w st = (Raise e, st)
  end.
Proof.
  induction keys as [|key keys IH]; intros v w st; simpl.
  - reflexivity.
  - destruct v; simpl; try (eexists; reflexivity).
    unfold_script. destruct (d !! key) as [v'|] eqn:Hkey; simpl.
    + apply IH.
    + eexists; reflexivity.
Qed.

#[global] Arguments subscript : simpl never.
#[global] Arguments lookup_path : simpl never.

Lemma check_contributor_run pr_number w st :
  (check_contributor pr_number w st).1 =
    Ret (contributor_result w (contributor_answer pr_number w st)).
Proof.
  unfold check_contributor, contributor_result, contributor_answer.
  unfold_script.
  destruct (check_output _ _ _) as [out|e]; simpl; [|reflexivity].
  destruct (Py.decode out) as [text|]; simpl; [|reflexivity].
  destruct (json_loads w text) as [doc|]; simpl; [|reflexivity].
  match goal with |- context [subscript doc ?k w ?s] =>
    pose proof (subscript_lookup k doc w s) as Hlogin end.
  fold login_path in *.
  destruct (lookup_path doc login_path) as [login|].
  - rewrite Hlogin.
    match goal with |- context [subscript doc ?k w ?s] =>
      pose proof (subscript_lookup k doc w s) as Hassoc end.
    fold association_path in *.
    destruct (lookup_path doc association_path) as [assoc|].
    + rewrite Hassoc. destruct assoc; reflexivity.
    + destruct Hassoc as [e ->]. reflexivity.
  - destruct Hlogin as [e ->]. reflexivity.
Qed.

Lemma contributor_result_failure w answer :
  fetch_failure w answer -> contributor_result w answer = (PyNone, false).
Proof.
  unfold contributor_result.
  intros [e ->|out -> ->|out text -> -> ->|out text doc path -> -> -> Hpath Hnone
         |out text doc v -> -> -> Hv Hnot]; try reflexivity.
  - destruct Hpath as [-> | ->]; rewrite Hnone; [reflexivity|].
    destruct (lookup_path doc login_path); reflexivity.
  - rewrite Hv. destruct (lookup_path doc login_path); [|reflexivity].
    destruct v; try reflexivity. destruct (Hnot s); reflexivity.
Qed.

Lemma upper_first_time_contributor :
  Py.upper "FIRST_TIME_CONTRIBUTOR" = "FIRST_TIME_CONTRIBUTOR".
Proof. reflexivity. Qed.

(** ** Equality up to case on ASCII texts *)

Lemma upper2_ascii c1 c2 : (N_of_ascii c1 < 0x80)%N -> Py.upper2 c1 c2 = None.
Proof.
  destruct c1 as [[] [] [] [] [] [] [] []]; intros H;
    first [ reflexivity | vm_compute in H; discriminate ].
Qed.

Lemma upper3_ascii c1 c2 c3 : (N_of_ascii c1 < 0x80)%N -> Py.upper3 c1 c2 c3 = None.
Proof.
  destruct c1 as [[] [] [] [] [] [] [] []]; intros H;
    first [ reflexivity | vm_compute in H; discriminate ].
Qed.

Lemma upper_ascii_text s :
  is_ascii s ->
  Py.upper s = string_of_list_ascii (map Py.upper_ascii (list_ascii_of_string s)).
Proof.
  unfold is_ascii. induction s as [|c1 s IH]; [reflexivity|].
  simpl list_ascii_of_string. intros Hs. inversion Hs as [|? ? Hc1 Hrest]; subst.
  specialize (IH Hrest). simpl map. simpl string_of_list_ascii. rewrite <- IH.
  destruct s as [|c2 s]; [reflexivity|].
  change (Py.upper (String c1 (String c2 s))) with
    (match Py.upper2 c1 c2 with
     | Some u => u +:+ Py.upper s
     | None =>
         match s with
         | EmptyString => String (Py.upper_ascii c1) (Py.upper (String c2 s))
         | String c3 s3 =>
             match Py.upper3 c1 c2 c3 with
             | Some u => u +:+ Py.upper s3
             | None => String (Py.upper_ascii c1) (Py.upper (String c2 s))
             end
         end
     end).
  rewrite upper2_ascii by assumption.
  destruct s as [|c3 s]; [reflexivity|].
  rewrite upper3_ascii by assumption. reflexivity.
Qed.

Lemma is_lower_bounds a :
  Py.is_lower a = true <-> (0x61 <= N_of_ascii a <= 0x7A)%N.
Proof. unfold Py.is_lower. rewrite andb_true_iff, !N.leb_le. tauto. Qed.

Lemma upper_ascii_same_letter a b :
  Py.upper_ascii a = Py.upper_ascii b <-> same_letter a b.
Proof.
  unfold same_letter, Py.upper_ascii.
  pose proof (N_ascii_bounded a) as Ha. pose proof (N_ascii_bounded b) as Hb.
  destruct (Py.is_lower a) eqn:La, (Py.is_lower b) eqn:Lb;
    try (pose proof (proj1 (is_lower_bounds a) La) as Ba);
    try (pose proof (proj1 (is_lower_bounds b) Lb) as Bb).
  - split.
    + intros H. left. apply (f_equal N_of_ascii) in H.
      rewrite !N_ascii_embedding in H by lia.
      rewrite <- (ascii_N_embedding a), <- (ascii_N_embedding b).
      f_equal. lia.
    + intros [->|[[_ H]|[_ H]]]; [reflexivity | lia | lia].
  - split.
    + intros H. right. left. split; [reflexivity|].
      rewrite <- H. apply N_ascii_embedding. lia.
    + intros [->|[[_ H]|[H _]]]; [congruence | | discriminate].
      rewrite <- H. apply ascii_N_embedding.
  - split.
    + intros H. right. right. split; [reflexivity|].
      rewrite H. apply N_ascii_embedding. lia.
    + intros [->|[[H _]|[_ H]]]; [congruence | discriminate |].
      rewrite <- H. symmetry. apply ascii_N_embedding.
  - split.
    + intros ->. left. reflexivity.
    + intros [->|[[H _]|[H _]]]; [reflexivity | discriminate | discriminate].
Qed.

Lemma map_upper_same_letter l1 : forall l2,
  map Py.upper_ascii l1 = map Py.upper_ascii l2 <-> Forall2 same_letter l1 l2.
Proof.
  induction l1 as [|a l1 IH]; intros [|b l2]; simpl.
  - split; [constructor | reflexivity].
  - split; [discriminate | inversion 1].
  - split; [discriminate | inversion 1].
  - split.
    + intros [= Hab Hrest]. constructor.
      * by apply upper_ascii_same_letter.
      * by apply IH.
    + inversion 1; subst. f_equal.
      * by apply upper_ascii_same_letter.
      * by apply IH.
Qed.

(** On ASCII texts, equality up to case is equality letter by letter, a
    lowercase letter matching its capital. *)
Lemma caseless_eq_ascii s t :
  is_ascii s -> is_ascii t ->
  caseless_eq s t <->
  Forall2 same_letter (list_ascii_of_string s) (list_ascii_of_string t).
Proof.
  intros Hs Ht. unfold caseless_eq.
  rewrite (upper_ascii_text s Hs), (upper_ascii_text t Ht).
  rewrite <- map_upper_same_letter. split.
  - intros H. apply (f_equal list_ascii_of_string) in H.
    by rewrite !list_ascii_of_string_of_list_ascii in H.
  - by intros ->.
Qed.

Lemma is_ascii_first_time_contributor : is_ascii "FIRST_TIME_CONTRIBUTOR".
Proof. unfold is_ascii. simpl. repeat constructor. Qed.

(** ** The contributor query *)

(** C3, as amended: when the tool succeeds, both fields are present and the
    association is a text, [check_contributor] returns the login with [True]
    exactly when the association equals FIRST_TIME_CONTRIBUTOR up to case,
    and the login with [False] for every other text; for a text in ASCII,
    up to case is letter by letter, a lowercase letter for its capital. *)
Theorem check_contributor_first_time
  pr_number w st out text doc login association :
  contributor_answer pr_number w st = Ret out ->
  Py.decode out = Some text ->
  json_loads w text = Some doc ->
  lookup_path doc login_path = Some login ->
  lookup_path doc association_path = Some (PyStr association) ->
  ((check_contributor pr_number w st).1 = Ret (login, true)
     <-> caseless_eq association "FIRST_TIME_CONTRIBUTOR")
  /\ ((check_contributor pr_number w st).1 = Ret (login, false)
     <-> ~ caseless_eq association "FIRST_TIME_CONTRIBUTOR")
  /\ (is_ascii association ->
      ((check_contributor pr_number w st).1 = Ret (login, true)
       <-> Forall2 same_letter (list_ascii_of_string association)
             (list_ascii_of_string "FIRST_TIME_CONTRIBUTOR"))).
Proof.
  intros Hanswer Hdecode Hjson Hlogin Hassoc.
  rewrite check_contributor_run. unfold contributor_result.
  rewrite Hanswer, Hdecode, Hjson, Hlogin, Hassoc.
  assert (forall flag : bool,
    Ret (login, String.eqb (Py.upper association) "FIRST_TIME_CONTRIBUTOR")
      = Ret (login, flag)
    <-> String.eqb (Py.upper association) "FIRST_TIME_CONTRIBUTOR" = flag)
    as Hflag by (intros flag; split; [by intros [= ->] | by intros ->]).
  unfold caseless_eq. rewrite upper_first_time_contributor.
  split; [|split].
  - rewrite Hflag. apply String.eqb_eq.
  - rewrite Hflag. apply String.eqb_neq.
  - intros Hascii. rewrite Hflag, String.eqb_eq.
    rewrite <- (caseless_eq_ascii _ _ Hascii is_ascii_first_time_contributor).
    unfold caseless_eq. by rewrite upper_first_time_contributor.
Qed.

(** C4: when the tool exits non-zero, its output is not JSON or a field of
    the answer is missing, [check_contributor] returns [(None, False)]: it
    returns, it does not raise. *)
Theorem check_contributor_failure pr_number w st :
  fetch_failure w (contributor_answer pr_number w st) ->
  (check_contributor pr_number w st).1 = Ret (PyNone, false).
Proof.
  intros Hfail. rewrite check_contributor_run.
  f_equal. apply contributor_result_failure, Hfail.
Qed.

(** C8, as amended: whenever the second component of the result is [True],
    the first is the value found under the login path of the parsed answer
    (so [None] only if that value is the JSON null), and the association is
    a text equal to FIRST_TIME_CONTRIBUTOR up to case. *)
Theorem check_contributor_true_login pr_number w st login :
  (check_contributor pr_number w st).1 = Ret (login, true) ->
  exists out text doc association,
    contributor_answer pr_number w st = Ret out
    /\ Py.decode out = Some text
    /\ json_loads w text = Some doc
    /\ lookup_path doc login_path = Some login
    /\ lookup_path doc association_path = Some (PyStr association)
    /\ caseless_eq association "FIRST_TIME_CONTRIBUTOR".
Proof.
  rewrite check_contributor_run. unfold contributor_result.
  destruct (contributor_answer pr_number w st) as [out|e]; [|congruence].
  destruct (Py.decode out) as [text|] eqn:Hdecode; [|congruence].
  destruct (json_loads w text) as [doc|] eqn:Hjson; [|congruence].
  destruct (lookup_path doc login_path) as [login'|] eqn:Hlogin; [|congruence].
  destruct (lookup_path doc association_path)
    as [[| | | |association| |]|] eqn:Hassoc; try congruence.
  intros [= -> Heq]. exists out, text, doc, association.
  repeat (split; [done|]).
  unfold caseless_eq. rewrite upper_first_time_contributor.
  apply String.eqb_eq, Heq.
Qed.

(** ** Comments *)

(** C5, as amended: when the body can be written, [pr_comment] writes the
    whole body to [reply.md] and then launches the tool, which finds the
    file with that body; the arguments are the fixed ones followed by the
    edit-last flag when [edit_last] is true and by nothing otherwise.  When
    the body cannot be written the tool is not launched at all. *)
Theorem pr_comment_body_before_tool body edit_last pr_number w st :
  let announce := Log INFO (MsgCommenting pr_number edit_last) in
  let evs := events_of (pr_comment body edit_last pr_number) w st in
  match open_write w (emit announce st) "reply.md" body with
  | Some _ => exists msg, evs = [announce; Log ERROR msg]
  | None =>
      exists flags report,
        evs = [announce; FileWrite "reply.md" body;
               Exec (["gh"; "pr"; "comment"; pr_number; "--body-file"; "reply.md"]
                     ++ flags)
                    (<["reply.md" := body]> (files st));
               report]
        /\ (flags = ["--edit-last"] /\ edit_last = true
            \/ flags = [] /\ edit_last = false)
  end.
Proof.
  unfold pr_comment.
  destruct edit_last; run_script;
    first [ eexists; reflexivity
          | eexists [_]; eexists; split; [reflexivity | left; split; reflexivity]
          | exists []; eexists; split; [reflexivity | right; split; reflexivity] ].
Qed.

(** C7, as amended: a call of [pr_comment] whose write succeeds leaves the
    file store as it was but for [reply.md], which holds the new body when
    the call returns; nothing deletes the file.  A call whose write fails
    leaves in [reply.md] what the failed attempt left, and no other file is
    touched either. *)
Theorem pr_comment_leaves_body_file body edit_last pr_number w st :
  files (pr_comment body edit_last pr_number w st).2 =
    match open_write w (emit (Log INFO (MsgCommenting pr_number edit_last)) st)
            "reply.md" body with
    | None => <["reply.md" := body]> (files st)
    | Some (_, Some partial) => <["reply.md" := partial]> (files st)
    | Some (_, None) => files st
    end.
Proof. unfold pr_comment. destruct edit_last; run_script; reflexivity. Qed.

(** C2, as amended: when the query for the comments returns an output that
    decodes, [pr_update_or_comment] is [pr_comment] with [edit_last=True] if
    the text starts with true, and [pr_comment] with [edit_last=False] for
    every other text. *)
Theorem pr_update_or_comment_dispatch user body pr_number sign w st out text :
  comments_answer user pr_number sign w st = Ret out ->
  Py.decode out = Some text ->
  pr_update_or_comment user body pr_number sign w st =
    if Py.startswith text "true"
    then pr_comment body true pr_number w
           (emit (Log INFO (MsgUpdatingLast user pr_number))
                 (comments_asked user pr_number sign st))
    else pr_comment body false pr_number w (comments_asked user pr_number sign st).
Proof.
  unfold comments_answer, comments_asked, comments_cmd, pr_update_or_comment.
  intros Hanswer Hdecode. unfold_script. rewrite Hanswer. simpl.
  rewrite Hdecode. simpl.
  destruct (Py.startswith text "true"); simpl;
    match goal with |- context [pr_comment ?b ?e ?p ?w ?s] =>
      pose proof (pr_comment_returns b e p w s) as H;
      destruct (pr_comment b e p w s) as [[[]|] ?]; simpl in *; congruence end.
Qed.

(** C9: when the query for the comments itself fails, [pr_update_or_comment]
    only logs the failure: the query is the one command launched, no file is
    written, and the operation returns. *)
Theorem pr_update_or_comment_query_fails user body pr_number sign w st e :
  comments_answer user pr_number sign w st = Raise e ->
  (pr_update_or_comment user body pr_number sign w st).1 = Ret tt
  /\ events_of (pr_update_or_comment user body pr_number sign) w st =
       [Exec (comments_cmd user pr_number sign) (files st);
        Log ERROR (failure_message MsgFailedCheckReturned MsgFailedCheck e)]
  /\ files (pr_update_or_comment user body pr_number sign w st).2 = files st.
Proof.
  unfold comments_answer, comments_asked, comments_cmd, pr_update_or_comment.
  intros Hanswer. unfold_script. rewrite Hanswer.
  destruct e; simpl; normalize_trace; auto.
Qed.

(** An output that is not UTF-8 has the same effect: nothing is posted. *)
Lemma pr_update_or_comment_undecodable user body pr_number sign w st out :
  comments_answer user pr_number sign w st = Ret out ->
  Py.decode out = None ->
  events_of (pr_update_or_comment user body pr_number sign) w st =
    [Exec (comments_cmd user pr_number sign) (files st);
     Log ERROR (MsgFailedCheck UnicodeDecodeError)].
Proof.
  unfold comments_answer, comments_asked, comments_cmd, pr_update_or_comment.
  intros Hanswer Hdecode. unfold_script. rewrite Hanswer. simpl.
  rewrite Hdecode. simpl. normalize_trace. reflexivity.
Qed.

(** ** Failures *)

(** C6: whatever the tool, the file system and the parser do, each of the
    four operations returns: the three commands return [None], and
    [check_contributor] returns a pair, which is [(None, False)] whenever
    its query failed. *)
Theorem failures_never_propagate w st :
  (forall body edit_last pr_number,
      (pr_comment body edit_last pr_number w st).1 = Ret tt)
  /\ (forall user body pr_number sign,
      (pr_update_or_comment user body pr_number sign w st).1 = Ret tt)
  /\ (forall add_labels remove_labels pr_number,
      (pr_label add_labels remove_labels pr_number w st).1 = Ret tt)
  /\ (forall pr_number, exists result,
      (check_contributor pr_number w st).1 = Ret result
      /\ (fetch_failure w (contributor_answer pr_number w st) ->
          result = (PyNone, false))).
Proof.
  repeat split; intros.
  - apply pr_comment_returns.
  - apply pr_update_or_comment_returns.
  - apply pr_label_returns.
  - eexists; split; [apply check_contributor_run|].
    apply contributor_result_failure.
Qed.

(** ** Labels *)

Lemma pr_label_commands add_labels remove_labels pr_number w st :
  commands (events_of (pr_label add_labels remove_labels pr_number) w st) =
    match pr_label_cmd add_labels remove_labels pr_number with
    | Some cmd => [cmd]
    | None => []
    end.
Proof.
  unfold pr_label.
  destruct (pr_label_cmd add_labels remove_labels pr_number);
    run_script; reflexivity.
Qed.

Lemma append_assoc (s t u : string) : (s +:+ t) +:+ u = s +:+ t +:+ u.
Proof.
  induction s as [|c s IH]; [reflexivity|].
  change (String c ((s +:+ t) +:+ u) = String c (s +:+ t +:+ u)).
  by rewrite IH.
Qed.

Lemma join_cons sep (x y : string) (rest : list string) :
  Py.join sep (x :: y :: rest) = x +:+ sep +:+ Py.join sep (y :: rest).
Proof. reflexivity. Qed.

(** A label that holds a comma joins like the two labels around the comma. *)
Lemma join_comma before x y after :
  Py.join "," (before ++ [x +:+ "," +:+ y] ++ after) =
  Py.join "," (before ++ [x; y] ++ after).
Proof.
  induction before as [|b before IH].
  - destruct after as [|a after].
    + reflexivity.
    + change ((x +:+ "," +:+ y) +:+ "," +:+ Py.join "," (a :: after) =
              x +:+ "," +:+ y +:+ "," +:+ Py.join "," (a :: after)).
      by rewrite !append_assoc.
  - destruct before as [|b' before]; simpl in *.
    + rewrite !join_cons. f_equal. f_equal. apply IH.
    + rewrite !join_cons. f_equal. f_equal. apply IH.
Qed.

Lemma truthy_middle before (x : string) after :
  truthy (Some (before ++ x :: after)) = true.
Proof. destruct before; reflexivity. Qed.

Lemma pr_label_cmd_add labels other pr_number :
  truthy (Some labels) = true ->
  pr_label_cmd (Some labels) other pr_number =
    Some ["gh"; "pr"; "edit"; pr_number; "--add-label"; Py.join "," labels].
Proof. unfold pr_label_cmd. intros ->. reflexivity. Qed.

Lemma pr_label_cmd_remove labels pr_number :
  truthy (Some labels) = true ->
  pr_label_cmd None (Some labels) pr_number =
    Some ["gh"; "pr"; "edit"; pr_number; "--remove-label"; Py.join "," labels].
Proof. unfold pr_label_cmd. intros ->. reflexivity. Qed.

(** C1: [pr_label] launches exactly one command, made of the add option and
    the comma-joined [add_labels] alone, when [add_labels] is a non-empty
    list, whatever [remove_labels] is; else one command made of the remove
    option and the joined [remove_labels] when that list is non-empty; else
    no command at all. *)
Theorem pr_label_precedence add_labels remove_labels pr_number w st :
  commands (events_of (pr_label add_labels remove_labels pr_number) w st) =
    match add_labels, remove_labels with
    | Some (a :: la), _ =>
        [["gh"; "pr"; "edit"; pr_number; "--add-label"; Py.join "," (a :: la)]]
    | _, Some (r :: lr) =>
        [["gh"; "pr"; "edit"; pr_number; "--remove-label"; Py.join "," (r :: lr)]]
    | _, _ => []
    end.
Proof.
  rewrite pr_label_commands.
  destruct add_labels as [[|a la]|], remove_labels as [[|r lr]|]; reflexivity.
Qed.

(** C10: the labels reach the tool as one argument, their join by commas,
    after the add or the remove option; a label written with a comma gives
    the very command of the two labels around the comma. *)
Theorem pr_label_joins_labels before x y after pr_number w st :
  let merged := before ++ [x +:+ "," +:+ y] ++ after in
  let apart := before ++ [x; y] ++ after in
  (forall other,
      commands (events_of (pr_label (Some merged) other pr_number) w st) =
        [["gh"; "pr"; "edit"; pr_number; "--add-label"; Py.join "," merged]]
      /\ commands (events_of (pr_label (Some apart) other pr_number) w st) =
        commands (events_of (pr_label (Some merged) other pr_number) w st))
  /\ (commands (events_of (pr_label None (Some merged) pr_number) w st) =
        [["gh"; "pr"; "edit"; pr_number; "--remove-label"; Py.join "," merged]]
      /\ commands (events_of (pr_label None (Some apart) pr_number) w st) =
        commands (events_of (pr_label None (Some merged) pr_number) w st)).
Proof.
  intros merged apart. subst merged apart.
  assert (truthy (Some (before ++ [x; y] ++ after)) = true) as Hapart
    by apply truthy_middle.
  assert (truthy (Some (before ++ [x +:+ "," +:+ y] ++ after)) = true) as Hmerged
    by apply truthy_middle.
  repeat split; intros; rewrite !pr_label_commands;
    rewrite ?pr_label_cmd_add, ?pr_label_cmd_remove by assumption;
    rewrite ?join_comma; reflexivity.
Qed.

(** ** The theorems at concrete runs *)

Lemma pr_update_or_comment_dispatch_witness :
  comments_answer "bot" "7" "[sig]" world_true initial
    = Ret (Py.encode ("true" +:+ Py.nl))
  /\ Py.decode (Py.encode ("true" +:+ Py.nl)) = Some ("true" +:+ Py.nl)
  /\ pr_update_or_comment "bot" "hi" "7" "[sig]" world_true initial =
       pr_comment "hi" true "7" world_true
         (emit (Log INFO (MsgUpdatingLast "bot" "7"))
               (comments_asked "bot" "7" "[sig]" initial)).
Proof.
  split; [reflexivity|]. split; [reflexivity|].
  apply (pr_update_or_comment_dispatch "bot" "hi" "7" "[sig]" world_true initial
           (Py.encode ("true" +:+ Py.nl)) ("true" +:+ Py.nl));
    reflexivity.
Defined.

Lemma pr_update_or_comment_query_fails_witness :
  comments_answer "bot" "7" "[sig]" world_exit_1 initial
    = Raise (CalledProcessError 1)
  /\ (pr_update_or_comment "bot" "hi" "7" "[sig]" world_exit_1 initial).1 = Ret tt
  /\ events_of (pr_update_or_comment "bot" "hi" "7" "[sig]") world_exit_1 initial =
       [Exec (comments_cmd "bot" "7" "[sig]") ∅;
        Log ERROR (MsgFailedCheckReturned 1)]
  /\ files (pr_update_or_comment "bot" "hi" "7" "[sig]" world_exit_1 initial).2 = ∅.
Proof.
  split; [reflexivity|].
  apply (pr_update_or_comment_query_fails "bot" "hi" "7" "[sig]" world_exit_1
           initial (CalledProcessError 1)).
  reflexivity.
Defined.

Lemma check_contributor_first_time_witness :
  contributor_answer "7" world_newcomer initial = Ret (Py.encode newcomer_text)
  /\ Py.decode (Py.encode newcomer_text) = Some newcomer_text
  /\ json_loads world_newcomer newcomer_text = Some newcomer_doc
  /\ lookup_path newcomer_doc login_path = Some (PyStr "alice")
  /\ lookup_path newcomer_doc association_path
       = Some (PyStr "First_Time_Contributor")
  /\ caseless_eq "First_Time_Contributor" "FIRST_TIME_CONTRIBUTOR"
  /\ (check_contributor "7" world_newcomer initial).1 = Ret (PyStr "alice", true).
Proof.
  repeat (split; [vm_compute; reflexivity|]).
  refine (proj2 (proj1 (check_contributor_first_time "7" world_newcomer initial
           (Py.encode newcomer_text) newcomer_text newcomer_doc
           (PyStr "alice") "First_Time_Contributor" _ _ _ _ _)) _);
    vm_compute; reflexivity.
Defined.

Lemma check_contributor_failure_witness :
  fetch_failure world_exit_1 (contributor_answer "7" world_exit_1 initial)
  /\ (check_contributor "7" world_exit_1 initial).1 = Ret (PyNone, false).
Proof.
  assert (fetch_failure world_exit_1 (contributor_answer "7" world_exit_1 initial))
    as Hfail by (apply (tool_failed _ _ (CalledProcessError 1)); reflexivity).
  split; [exact Hfail|].
  apply (check_contributor_failure "7" world_exit_1 initial Hfail).
Defined.

Lemma check_contributor_true_login_witness :
  (check_contributor "7" world_newcomer initial).1 = Ret (PyStr "alice", true)
  /\ exists out text doc association,
       contributor_answer "7" world_newcomer initial = Ret out
       /\ Py.decode out = Some text
       /\ json_loads world_newcomer text = Some doc
       /\ lookup_path doc login_path = Some (PyStr "alice")
       /\ lookup_path doc association_path = Some (PyStr association)
       /\ caseless_eq association "FIRST_TIME_CONTRIBUTOR".
Proof.
  split; [vm_compute; reflexivity|].
  apply (check_contributor_true_login "7" world_newcomer initial (PyStr "alice")).
  vm_compute; reflexivity.
Defined.

(** ** Where the code departs from the claims *)

(** C7 has the body file deleted once used.  Here a comment is posted by a
    tool that succeeds, and when [pr_comment] has returned the file is still
    there, with the body in it. *)
Lemma pr_comment_body_file_persists :
  files (pr_comment "hi" false "7" world_quiet initial).2 !! "reply.md"
    = Some "hi".
Proof. vm_compute. reflexivity. Qed.

(** C2 has a new comment posted for every output that does not start with
    true.  Here the query succeeds and prints one byte that is not UTF-8:
    the decoding raises inside the [try], one error is logged, no comment
    command is launched and [reply.md] is not written. *)
Lemma pr_update_or_comment_garbled_posts_nothing :
  comments_answer "bot" "7" "[sig]" world_garbled initial = Ret [xff]
  /\ events_of (pr_update_or_comment "bot" "hi" "7" "[sig]") world_garbled initial =
       [Exec (comments_cmd "bot" "7" "[sig]") ∅;
        Log ERROR (MsgFailedCheck UnicodeDecodeError)]
  /\ files (pr_update_or_comment "bot" "hi" "7" "[sig]" world_garbled initial).2
       !! "reply.md" = None.
Proof. vm_compute. repeat split; reflexivity. Qed.

(** C3 has the login returned with [False] for every association other than
    a first-time contributor.  Here both fields are present and the
    association is the number 5: [upper] raises, and the login is lost. *)
Lemma check_contributor_number_association :
  lookup_path number_association_doc login_path = Some (PyStr "alice")
  /\ lookup_path number_association_doc association_path = Some (PyInt 5)
  /\ (check_contributor "7" world_number_association initial).1
       = Ret (PyNone, false).
Proof. vm_compute. repeat split; reflexivity. Qed.

(** C5 has the argument list contain the edit-last flag only if [edit_last]
    is true.  Here [edit_last] is false and the PR number is that very
    text: the list launched contains it. *)
Lemma pr_comment_flag_as_pr_number :
  commands (events_of (pr_comment "hi" false "--edit-last") world_quiet initial) =
    [["gh"; "pr"; "comment"; "--edit-last"; "--body-file"; "reply.md"]]
  /\ In "--edit-last"
       ["gh"; "pr"; "comment"; "--edit-last"; "--body-file"; "reply.md"].
Proof. split; [vm_compute; reflexivity | simpl; auto]. Qed.

(** C8 has [check_contributor] never return [(None, True)].  Here the answer
    of the tool carries a null login with the association of a first-time
    contributor, and that pair is what comes back. *)
Lemma check_contributor_none_true :
  (check_contributor "7" world_null_login initial).1 = Ret (PyNone, true).
Proof. vm_compute. reflexivity. Qed.

(** ** The scenarios of the specification *)

Example set_labels_bug_stale :
  commands (events_of (pr_label (Some ["bug"]) (Some ["stale"]) "7")
              world_quiet initial)
    = [["gh"; "pr"; "edit"; "7"; "--add-label"; "bug"]].
Proof. vm_compute. reflexivity. Qed.

Example upsert_comment_true :
  commands (events_of (pr_update_or_comment "bot" "hi" "7" "[sig]")
              world_true initial)
    = [comments_cmd "bot" "7" "[sig]";
       ["gh"; "pr"; "comment"; "7"; "--body-file"; "reply.md"; "--edit-last"]].
Proof. vm_compute. reflexivity. Qed.

Example upsert_comment_false :
  commands (events_of (pr_update_or_comment "bot" "hi" "7" "[sig]")
              world_quiet initial)
    = [comments_cmd "bot" "7" "[sig]";
       ["gh"; "pr"; "comment"; "7"; "--body-file"; "reply.md"]].
Proof. vm_compute. reflexivity. Qed.

Example upsert_comment_not_utf8 :
  commands (events_of (pr_update_or_comment "bot" "hi" "7" "[sig]")
              world_garbled initial)
    = [comments_cmd "bot" "7" "[sig]"].
Proof. vm_compute. reflexivity. Qed.

Example label_with_comma :
  commands (events_of (pr_label (Some ["a,b"]) None "7") world_quiet initial)
    = commands (events_of (pr_label (Some ["a"; "b"]) None "7") world_quiet initial).
Proof. vm_compute. reflexivity. Qed.

Example ligature_counts_as_first_time :
  Py.upper "ﬁrst_time_contributor" = "FIRST_TIME_CONTRIBUTOR".
Proof. vm_compute. reflexivity. Qed.

(** * Beyond the claims *)

(** ** The environment after the import *)

Lemma setup_environ_lookup_token environ :
  setup_environ environ !! "GH_TOKEN" =
    Some (match environ !! "GH_TOKEN" with
          | Some token => token
          | None => default "" (environ !! "github_api_token")
          end).
Proof.
  unfold setup_environ. rewrite lookup_insert_ne by done.
  destruct (environ !! "GH_TOKEN") as [token|] eqn:Htoken; [exact Htoken|].
  apply lookup_insert_eq.
Qed.

(** X1: after the import [GH_TOKEN] is always set: to the value it had, even an
    empty one and even when [github_api_token] is set too; else to the value
    of [github_api_token]; else to the empty text. *)
Theorem setup_environ_token environ :
  setup_environ environ !! "GH_TOKEN" =
    Some (match environ !! "GH_TOKEN", environ !! "github_api_token" with
          | Some token, _ => token
          | None, Some fallback => fallback
          | None, None => ""
          end).
Proof.
  rewrite setup_environ_lookup_token.
  destruct (environ !! "GH_TOKEN"); [done|].
  by destruct (environ !! "github_api_token").
Qed.

(** X2: the import is idempotent on the environment: importing again changes
    nothing. *)
Theorem setup_environ_idempotent environ :
  setup_environ (setup_environ environ) = setup_environ environ.
Proof.
  pose proof (setup_environ_lookup_token environ) as Htoken.
  unfold setup_environ at 1. rewrite Htoken.
  apply insert_id. unfold setup_environ. apply lookup_insert_eq.
Qed.

(** X3: the import sets [NO_COLOR] to true and touches no variable but it and
    [GH_TOKEN]: the fallback variable stays, and so does [PR_NUMBER]. *)
Theorem setup_environ_frame environ :
  setup_environ environ !! "NO_COLOR" = Some "true"
  /\ PR_NUMBER (setup_environ environ) = PR_NUMBER environ
  /\ forall name, name <> "GH_TOKEN" -> name <> "NO_COLOR" ->
       setup_environ environ !! name = environ !! name.
Proof.
  unfold PR_NUMBER, setup_environ. split; [apply lookup_insert_eq|].
  assert (forall name, name <> "GH_TOKEN" -> name <> "NO_COLOR" ->
    <["NO_COLOR" := "true"]>
      (match environ !! "GH_TOKEN" with
       | None => <["GH_TOKEN" := default "" (environ !! "github_api_token")]> environ
       | Some _ => environ
       end) !! name = environ !! name) as Hframe.
  { intros name Htoken Hcolor. rewrite lookup_insert_ne by done.
    destruct (environ !! "GH_TOKEN"); [done|]. by rewrite lookup_insert_ne. }
  split; [by apply Hframe | exact Hframe].
Qed.

(** ** What [pr_comment] reports *)

Lemma pr_comment_run_written body edit_last pr_number w st :
  body_written body edit_last pr_number w st ->
  pr_comment body edit_last pr_number w st =
    (Ret tt,
     emit (match comment_answer body edit_last pr_number w st with
           | Ret out =>
               match Py.decode out with
               | Some text => Log INFO (MsgOutput text)
               | None => Log ERROR (MsgFailedComment UnicodeDecodeError)
               end
           | Raise e =>
               Log ERROR (failure_message MsgFailedCommentReturned MsgFailedComment e)
           end)
          (comment_launched body edit_last pr_number st)).
Proof.
  unfold body_written, comment_answer, comment_launched, comment_announced,
    comment_cmd, pr_comment.
  intros Hwritten. unfold_script. rewrite Hwritten. simpl.
  destruct edit_last; simpl; world_cases; reflexivity.
Qed.

Lemma events_of_launched {A : Type} (m : M A) body edit_last pr_number w st ev o :
  m w st = (o, emit ev (comment_launched body edit_last pr_number st)) ->
  events_of m w st =
    [Log INFO (MsgCommenting pr_number edit_last); FileWrite "reply.md" body;
     Exec (comment_cmd pr_number edit_last) (<["reply.md" := body]> (files st));
     ev].
Proof.
  intros Hrun. unfold events_of. rewrite Hrun.
  unfold comment_launched, comment_announced, emit. simpl.
  normalize_trace. reflexivity.
Qed.

(** X4: when the tool fails once the body is written, [pr_comment] logs one
    error, the return code for a non-zero exit and the exception otherwise,
    and leaves [reply.md] behind with the body in it. *)
Theorem pr_comment_tool_failure body edit_last pr_number w st e :
  body_written body edit_last pr_number w st ->
  comment_answer body edit_last pr_number w st = Raise e ->
  events_of (pr_comment body edit_last pr_number) w st =
    [Log INFO (MsgCommenting pr_number edit_last); FileWrite "reply.md" body;
     Exec (comment_cmd pr_number edit_last) (<["reply.md" := body]> (files st));
     Log ERROR (match e with
                | CalledProcessError returncode => MsgFailedCommentReturned returncode
                | _ => MsgFailedComment e
                end)]
  /\ files (pr_comment body edit_last pr_number w st).2 !! "reply.md" = Some body.
Proof.
  intros Hwritten Hanswer.
  pose proof (pr_comment_run_written _ _ _ _ _ Hwritten) as Hrun.
  rewrite Hanswer in Hrun. split.
  - by apply (events_of_launched _ _ _ _ _ _ _ _ Hrun).
  - rewrite Hrun. apply lookup_insert_eq.
Qed.

(** X5: when the tool succeeds, [pr_comment] logs its output at the INFO level;
    but an output that is not UTF-8 is reported as a failure to comment,
    although the command ran to its end. *)
Theorem pr_comment_success_report body edit_last pr_number w st out :
  body_written body edit_last pr_number w st ->
  comment_answer body edit_last pr_number w st = Ret out ->
  events_of (pr_comment body edit_last pr_number) w st =
    [Log INFO (MsgCommenting pr_number edit_last); FileWrite "reply.md" body;
     Exec (comment_cmd pr_number edit_last) (<["reply.md" := body]> (files st));
     match Py.decode out with
     | Some text => Log INFO (MsgOutput text)
     | None => Log ERROR (MsgFailedComment UnicodeDecodeError)
     end].
Proof.
  intros Hwritten Hanswer.
  pose proof (pr_comment_run_written _ _ _ _ _ Hwritten) as Hrun.
  rewrite Hanswer in Hrun.
  by apply (events_of_launched _ _ _ _ _ _ _ _ Hrun).
Qed.

(** X6: two comments in a row: when both bodies are written, the file store
    after the second call is the first store with [reply.md] holding the
    second body; the first body is gone. *)
Theorem pr_comment_twice body1 edit1 pr1 body2 edit2 pr2 w st :
  body_written body1 edit1 pr1 w st ->
  body_written body2 edit2 pr2 w (pr_comment body1 edit1 pr1 w st).2 ->
  files (pr_comment body2 edit2 pr2 w (pr_comment body1 edit1 pr1 w st).2).2 =
    <["reply.md" := body2]> (files st).
Proof.
  intros Hfirst Hsecond.
  rewrite (pr_comment_run_written _ _ _ _ _ Hsecond).
  rewrite (pr_comment_run_written _ _ _ _ _ Hfirst).
  simpl. apply insert_insert_eq.
Qed.

(** ** What the other operations touch *)

Ltac close_contributor_case :=
  simpl; split; [reflexivity|]; eexists; split;
    [normalize_trace; reflexivity|];
    first [ left; do 2 eexists; split; reflexivity
          | right; eexists; split; reflexivity ].

(** X12: [check_contributor] writes no file and launches one command, the GraphQL
    query; the line it logs last agrees with what it returns: the login and
    the flag at the INFO level, or an error with [(None, False)]. *)
Theorem check_contributor_footprint pr_number w st :
  files (check_contributor pr_number w st).2 = files st
  /\ exists report,
      events_of (check_contributor pr_number) w st =
        [Log INFO (MsgChecking pr_number);
         Exec ["gh"; "api"; "graphql"; "-F"; "query=" +:+ graphql_query pr_number]
              (files st);
         report]
      /\ ((exists login first_time,
             report = Log INFO (MsgContributor login first_time)
             /\ (check_contributor pr_number w st).1 = Ret (login, first_time))
          \/ (exists e,
             report = Log ERROR (MsgFailedFetch e)
             /\ (check_contributor pr_number w st).1 = Ret (PyNone, false))).
Proof.
  unfold check_contributor. unfold_script.
  destruct (check_output _ _ _) as [out|e]; [|close_contributor_case].
  simpl. destruct (Py.decode out) as [text|]; [|close_contributor_case].
  simpl. destruct (json_loads w text) as [doc|]; [|close_contributor_case].
  simpl.
  match goal with |- context [subscript doc ?k w ?s] =>
    pose proof (subscript_lookup k doc w s) as Hlogin end.
  destruct (lookup_path doc _) as [login|].
  - rewrite Hlogin.
    match goal with |- context [subscript doc ?k w ?s] =>
      pose proof (subscript_lookup k doc w s) as Hassoc end.
    destruct (lookup_path doc _) as [association|].
    + rewrite Hassoc. destruct association; close_contributor_case.
    + destruct Hassoc as [e ->]. close_contributor_case.
  - destruct Hlogin as [e ->]. close_contributor_case.
Qed.

(** X10: [pr_label] writes no file and launches at most one command; it logs the
    request first, and then either that there is nothing to do, or, after
    the command, its output or one error that carries the exception,
    a non-zero exit like any other. *)
Theorem pr_label_footprint add_labels remove_labels pr_number w st :
  files (pr_label add_labels remove_labels pr_number w st).2 = files st
  /\ exists rest,
      events_of (pr_label add_labels remove_labels pr_number) w st =
        Log INFO (MsgLabeling pr_number add_labels remove_labels) :: rest
      /\ (rest = [Log INFO MsgNoLabels]
          \/ exists cmd report,
               rest = [Exec cmd (files st); report]
               /\ ((exists text, report = Log INFO (MsgOutput text))
                   \/ (exists e, report = Log ERROR (MsgFailedLabel e)))).
Proof.
  unfold pr_label.
  destruct (pr_label_cmd add_labels remove_labels pr_number) as [cmd|];
    run_script; (split; [reflexivity|]); eexists; (split; [reflexivity|]);
    first [ left; reflexivity
          | right; do 2 eexists; split; [reflexivity|];
            first [ left; eexists; reflexivity | right; eexists; reflexivity ] ].
Qed.

Lemma pr_comment_effect body edit_last pr_number w st :
  exists st' evs,
    pr_comment body edit_last pr_number w st = (Ret tt, st')
    /\ trace st' = trace st ++ evs
    /\ (commands evs = [] \/ commands evs = [comment_cmd pr_number edit_last])
    /\ forall path, path <> "reply.md" -> files st' !! path = files st !! path.
Proof.
  unfold pr_comment, comment_cmd.
  destruct edit_last; run_script;
    eexists; eexists; (split; [reflexivity|]); simpl;
    (split; [repeat rewrite <- app_assoc; reflexivity|]);
    (split; [first [left; reflexivity | right; reflexivity]|]);
    intros path Hpath; rewrite ?lookup_insert_ne by done; reflexivity.
Qed.

Lemma new_events_trace st st' evs :
  trace st' = trace st ++ evs -> new_events st st' = evs.
Proof. unfold new_events. intros ->. apply drop_app_length. Qed.

(** X8: [pr_update_or_comment] launches the query for the comments first and at
    most one more command, a [pr comment] for the same PR number with or
    without the edit-last flag; the only file it may change is [reply.md]. *)
Theorem pr_update_or_comment_footprint user body pr_number sign w st :
  (exists rest,
      commands (events_of (pr_update_or_comment user body pr_number sign) w st) =
        comments_cmd user pr_number sign :: rest
      /\ (rest = [] \/ rest = [comment_cmd pr_number true]
          \/ rest = [comment_cmd pr_number false]))
  /\ forall path, path <> "reply.md" ->
       files (pr_update_or_comment user body pr_number sign w st).2 !! path =
         files st !! path.
Proof.
  unfold pr_update_or_comment, comments_cmd. unfold_script.
  destruct (check_output _ _ _) as [out|e]; simpl.
  - destruct (Py.decode out) as [text|]; simpl.
    + destruct (Py.startswith text "true"); simpl;
        match goal with |- context [pr_comment ?b ?el ?p ?w ?s] =>
          destruct (pr_comment_effect b el p w s)
            as (st' & evs & -> & Htrace & Hcmds & Hfiles) end;
        simpl in *; (split; [|exact Hfiles]);
        unfold new_events; rewrite Htrace; simpl;
        repeat rewrite <- app_assoc; rewrite drop_app_length; simpl;
        eexists; (split; [reflexivity|]);
        destruct Hcmds as [-> | ->]; auto.
    + normalize_trace. split; [|reflexivity]. eexists; split; [reflexivity|auto].
  - destruct e; simpl; normalize_trace;
      (split; [|reflexivity]); eexists; (split; [reflexivity|auto]).
Qed.

(** ** The texts sent to the tool *)

(** X9: the jq filter takes the user and the marker as they are, without
    escaping: a user that contains the text closing the login and opening
    the marker gives the filter of a shorter user with a longer marker, so
    the filter does not tell the two apart. *)
Theorem jq_query_not_escaped user middle sign :
  jq_query (user +:+ jq_separator +:+ middle) sign =
  jq_query user (middle +:+ jq_separator +:+ sign).
Proof.
  unfold jq_query, jq_separator. rewrite !append_assoc. reflexivity.
Qed.

Lemma no_newline_app s t :
  no_newline (s +:+ t) = no_newline s && no_newline t.
Proof.
  induction s as [|c s IH]; [reflexivity|].
  change (negb (Ascii.eqb c (ascii_of_nat 10)) && no_newline (s +:+ t) =
          negb (Ascii.eqb c (ascii_of_nat 10)) && no_newline s && no_newline t).
  rewrite IH. apply andb_assoc.
Qed.

Lemma split_no_newline s :
  no_newline s = true -> Py.split (ascii_of_nat 10) s = [s].
Proof.
  induction s as [|c s IH]; [reflexivity|].
  simpl. intros [Hc Hs]%andb_true_iff.
  apply negb_true_iff in Hc. rewrite Hc, (IH Hs). reflexivity.
Qed.

(** A line without line feed, then a line feed: the line is the first piece. *)
Lemma split_line s t :
  no_newline s = true ->
  Py.split (ascii_of_nat 10) (s +:+ Py.nl +:+ t) = s :: Py.split (ascii_of_nat 10) t.
Proof.
  induction s as [|c s IH]; [reflexivity|].
  simpl no_newline. intros [Hc Hs]%andb_true_iff.
  apply negb_true_iff in Hc.
  change (Py.split (ascii_of_nat 10) (String c (s +:+ Py.nl +:+ t)) =
          String c s :: Py.split (ascii_of_nat 10) t).
  simpl Py.split. rewrite Hc, (IH Hs). reflexivity.
Qed.

Lemma list_ascii_app s t :
  list_ascii_of_string (s +:+ t) = list_ascii_of_string s ++ list_ascii_of_string t.
Proof.
  induction s as [|c s IH]; [reflexivity|].
  change (c :: list_ascii_of_string (s +:+ t) =
          c :: (list_ascii_of_string s ++ list_ascii_of_string t)).
  by rewrite IH.
Qed.

Lemma strip_front_keep sp2 sp3 c rest :
  Py.is_space c = false ->
  (forall a, sp2 c a = false) ->
  (forall a b, sp3 c a b = false) ->
  Py.strip_front sp2 sp3 (String c rest) = String c rest.
Proof.
  intros Hc H2 H3. simpl. rewrite Hc.
  destruct rest as [|a rest]; [reflexivity|]. rewrite H2.
  destruct rest as [|b rest]; [reflexivity|]. by rewrite H3.
Qed.

(** No white space of several bytes ends with an ASCII character. *)
Lemma is_space2_ascii_last a c :
  (N_of_ascii c < 0x80)%N -> Py.is_space2 a c = false.
Proof.
  intros Hc. unfold Py.is_space2.
  replace (N_of_ascii c =? 0x85)%N with false by (symmetry; apply N.eqb_neq; lia).
  replace (N_of_ascii c =? 0xA0)%N with false by (symmetry; apply N.eqb_neq; lia).
  apply andb_false_r.
Qed.

Lemma is_space3_ascii_last a b c :
  (N_of_ascii c < 0x80)%N -> Py.is_space3 a b c = false.
Proof.
  intros Hc. unfold Py.is_space3. cbv zeta.
  replace (N_of_ascii c =? 0x80)%N with false by (symmetry; apply N.eqb_neq; lia).
  replace (N_of_ascii c =? 0xA8)%N with false by (symmetry; apply N.eqb_neq; lia).
  replace (N_of_ascii c =? 0xA9)%N with false by (symmetry; apply N.eqb_neq; lia).
  replace (N_of_ascii c =? 0xAF)%N with false by (symmetry; apply N.eqb_neq; lia).
  replace (N_of_ascii c =? 0x9F)%N with false by (symmetry; apply N.eqb_neq; lia).
  replace (0x80 <=? N_of_ascii c)%N with false by (symmetry; apply N.leb_gt; lia).
  repeat match goal with
         | |- context [(N_of_ascii ?x =? ?n)%N] => destruct (N_of_ascii x =? n)%N
         end; reflexivity.
Qed.

(** Nothing is stripped on the right of a text that ends with an ASCII
    character that is no white space. *)
Lemma rstrip_last s c :
  Py.is_space c = false ->
  (N_of_ascii c < 0x80)%N ->
  Py.rstrip (s +:+ String c EmptyString) = s +:+ String c EmptyString.
Proof.
  intros Hc Hascii. unfold Py.rstrip.
  rewrite list_ascii_app.
  change (list_ascii_of_string (String c EmptyString)) with [c].
  rewrite rev_unit.
  change (string_of_list_ascii (c :: rev (list_ascii_of_string s)))
    with (String c (string_of_list_ascii (rev (list_ascii_of_string s)))).
  rewrite strip_front_keep; [ | assumption
    | intros; by apply is_space2_ascii_last
    | intros; by apply is_space3_ascii_last ].
  change (list_ascii_of_string
            (String c (string_of_list_ascii (rev (list_ascii_of_string s)))))
    with (c :: list_ascii_of_string
                 (string_of_list_ascii (rev (list_ascii_of_string s)))).
  rewrite list_ascii_of_string_of_list_ascii.
  change (rev (c :: rev (list_ascii_of_string s)))
    with (rev (rev (list_ascii_of_string s)) ++ [c]).
  rewrite rev_involutive.
  change [c] with (list_ascii_of_string (String c EmptyString)).
  rewrite <- list_ascii_app. apply string_of_list_ascii_of_string.
Qed.

(** Lines without line feed, joined by line feeds and split again. *)
Lemma split_join_lines line lines :
  forallb no_newline (line :: lines) = true ->
  Py.split (ascii_of_nat 10) (Py.join Py.nl (line :: lines)) = line :: lines.
Proof.
  revert line. induction lines as [|next lines IH]; intros line Hlines.
  - simpl in Hlines. apply andb_true_iff in Hlines as [Hline _].
    by apply split_no_newline.
  - change (forallb no_newline (line :: next :: lines))
      with (no_newline line && forallb no_newline (next :: lines)) in Hlines.
    apply andb_true_iff in Hlines as [Hline Hlines].
    rewrite join_cons, split_line by assumption. by rewrite IH.
Qed.

(** The lines of the template. *)
Lemma query_template_lines pr_number :
  query_template pr_number =
    Py.join Py.nl
      [""; "    {";
       "      repository(owner: " +:+ Py.dq +:+ "MCDReforged" +:+ Py.dq
         +:+ ", name: " +:+ Py.dq +:+ "PluginCatalogue" +:+ Py.dq +:+ ") {";
       "        pullRequest(number: " +:+ pr_number +:+ ") {";
       "          author {"; "            login"; "          }";
       "          authorAssociation"; "        }"; "      }"; "    }"; "    "].
Proof.
  unfold query_template, Py.join. cbn [String.concat].
  change (nth 0 CATALOGUE_REPO "") with "MCDReforged".
  change (nth 1 CATALOGUE_REPO "") with "PluginCatalogue".
  rewrite !append_assoc. reflexivity.
Qed.

Lemma strip_pull_request_line pr_number :
  Py.strip ("        pullRequest(number: " +:+ pr_number +:+ ") {") =
    "pullRequest(number: " +:+ pr_number +:+ ") {".
Proof.
  unfold Py.strip.
  change (Py.lstrip ("        pullRequest(number: " +:+ pr_number +:+ ") {"))
    with ("pullRequest(number: " +:+ pr_number +:+ ") {").
  replace ("pullRequest(number: " +:+ pr_number +:+ ") {")
    with (("pullRequest(number: " +:+ pr_number +:+ ") ") +:+ String "{" EmptyString)
    by (rewrite !append_assoc; reflexivity).
  by apply rstrip_last.
Qed.

(** X11: for a PR number without line feed the GraphQL query is one line: the
    lines of the template, stripped and joined by single spaces, with the
    number as it is between the parentheses. *)
Theorem graphql_query_one_line pr_number :
  no_newline pr_number = true ->
  graphql_query pr_number = one_line_query pr_number.
Proof.
  intros Hpr. unfold graphql_query.
  rewrite query_template_lines, split_join_lines.
  - cbn [map]. rewrite strip_pull_request_line.
    unfold Py.join. cbn [String.concat]. unfold one_line_query.
    rewrite !append_assoc. reflexivity.
  - cbn [forallb]. rewrite !no_newline_app, Hpr. reflexivity.
Qed.

(** ** The association, letter by letter *)

(** X13: for an association written in ASCII, [check_contributor] answers [True]
    exactly when the association is FIRST_TIME_CONTRIBUTOR letter by letter,
    a lowercase letter standing for its capital. *)
Theorem check_contributor_ascii_letters
  pr_number w st out text doc login association :
  contributor_answer pr_number w st = Ret out ->
  Py.decode out = Some text ->
  json_loads w text = Some doc ->
  lookup_path doc login_path = Some login ->
  lookup_path doc association_path = Some (PyStr association) ->
  is_ascii association ->
  (check_contributor pr_number w st).1 = Ret (login, true) <->
  Forall2 same_letter (list_ascii_of_string association)
    (list_ascii_of_string "FIRST_TIME_CONTRIBUTOR").
Proof.
  intros Hanswer Hdecode Hjson Hlogin Hassoc Hascii.
  rewrite check_contributor_run. unfold contributor_result.
  rewrite Hanswer, Hdecode, Hjson, Hlogin, Hassoc.
  rewrite <- (caseless_eq_ascii _ _ Hascii is_ascii_first_time_contributor).
  unfold caseless_eq. rewrite upper_first_time_contributor.
  rewrite <- String.eqb_eq. split.
  - by intros [= ->].
  - by intros ->.
Qed.

(** ** The further theorems at concrete runs *)

Lemma pr_comment_tool_failure_witness :
  body_written "hi" false "7" world_exit_1 initial
  /\ comment_answer "hi" false "7" world_exit_1 initial = Raise (CalledProcessError 1)
  /\ events_of (pr_comment "hi" false "7") world_exit_1 initial =
       [Log INFO (MsgCommenting "7" false); FileWrite "reply.md" "hi";
        Exec ["gh"; "pr"; "comment"; "7"; "--body-file"; "reply.md"]
             (<["reply.md" := "hi"]> ∅);
        Log ERROR (MsgFailedCommentReturned 1)]
  /\ files (pr_comment "hi" false "7" world_exit_1 initial).2 !! "reply.md"
       = Some "hi".
Proof.
  split; [reflexivity|]. split; [reflexivity|].
  exact (pr_comment_tool_failure "hi" false "7" world_exit_1 initial
           (CalledProcessError 1) eq_refl eq_refl).
Defined.

Lemma pr_comment_success_report_witness :
  body_written "hi" true "7" world_garbled initial
  /\ comment_answer "hi" true "7" world_garbled initial = Ret [xff]
  /\ events_of (pr_comment "hi" true "7") world_garbled initial =
       [Log INFO (MsgCommenting "7" true); FileWrite "reply.md" "hi";
        Exec ["gh"; "pr"; "comment"; "7"; "--body-file"; "reply.md"; "--edit-last"]
             (<["reply.md" := "hi"]> ∅);
        Log ERROR (MsgFailedComment UnicodeDecodeError)].
Proof.
  split; [reflexivity|]. split; [reflexivity|].
  exact (pr_comment_success_report "hi" true "7" world_garbled initial [xff]
           eq_refl eq_refl).
Defined.

Lemma pr_comment_twice_witness :
  body_written "first" false "7" world_quiet initial
  /\ body_written "second" true "7" world_quiet
       (pr_comment "first" false "7" world_quiet initial).2
  /\ files (pr_comment "second" true "7" world_quiet
              (pr_comment "first" false "7" world_quiet initial).2).2 =
       <["reply.md" := "second"]> ∅.
Proof.
  split; [reflexivity|]. split; [reflexivity|].
  exact (pr_comment_twice "first" false "7" "second" true "7" world_quiet initial
           eq_refl eq_refl).
Defined.

Lemma pr_update_or_comment_undecodable_witness :
  comments_answer "bot" "7" "[sig]" world_garbled initial = Ret [xff]
  /\ Py.decode [xff] = None
  /\ events_of (pr_update_or_comment "bot" "hi" "7" "[sig]") world_garbled initial =
       [Exec (comments_cmd "bot" "7" "[sig]") ∅;
        Log ERROR (MsgFailedCheck UnicodeDecodeError)].
Proof.
  split; [reflexivity|]. split; [reflexivity|].
  exact (pr_update_or_comment_undecodable "bot" "hi" "7" "[sig]" world_garbled
           initial [xff] eq_refl eq_refl).
Defined.

Lemma graphql_query_one_line_witness :
  no_newline "42" = true
  /\ graphql_query "42" = one_line_query "42".
Proof.
  split; [reflexivity|].
  exact (graphql_query_one_line "42" eq_refl).
Defined.

Lemma is_ascii_mixed_case : is_ascii "First_Time_Contributor".
Proof. unfold is_ascii. simpl. repeat constructor. Qed.

Lemma check_contributor_ascii_letters_witness :
  contributor_answer "7" world_newcomer initial = Ret (Py.encode newcomer_text)
  /\ Py.decode (Py.encode newcomer_text) = Some newcomer_text
  /\ json_loads world_newcomer newcomer_text = Some newcomer_doc
  /\ lookup_path newcomer_doc login_path = Some (PyStr "alice")
  /\ lookup_path newcomer_doc association_path
       = Some (PyStr "First_Time_Contributor")
  /\ is_ascii "First_Time_Contributor"
  /\ ((check_contributor "7" world_newcomer initial).1 = Ret (PyStr "alice", true)
      <-> Forall2 same_letter (list_ascii_of_string "First_Time_Contributor")
            (list_ascii_of_string "FIRST_TIME_CONTRIBUTOR")).
Proof.
  repeat (split; [vm_compute; reflexivity|]).
  split; [exact is_ascii_mixed_case|].
  apply (check_contributor_ascii_letters "7" world_newcomer initial
           (Py.encode newcomer_text) newcomer_text newcomer_doc);
    first [ exact is_ascii_mixed_case | vm_compute; reflexivity ].
Defined.
